(** * ATR trailing stop calculator: a model of [stoploss-ATR.py]

    The development embeds the numeric core of the script
    ([fetch_ticker_data], [calculate_atr_trailing_stop]), the sidebar
    handlers that mutate the ticker list, the analysis loop and the
    messages of the button handler, and states the properties of the
    specification against them.

    Numbers.  The columns are modelled with floats that are either NaN or
    an exact rational kept in lowest terms.  NaN is kept because the
    script manufactures one on every run: [Series.shift()] has no value
    for the first row.  Rounding and overflow are not in this model, so
    what is stated over it is what rounding cannot change: which values
    are NaN, signs, orderings, and results whose operations are exact.
    Where the rounded value itself matters, lines 49 and 55 are also
    given on binary64 floats ([derive_stop_double]). *)

From Stdlib Require Import List ZArith QArith Qabs Qminmax Lia Lqa Bool.
From Stdlib Require Import Ascii String DecimalString Floats.
Import ListNotations.

Local Open Scope Q_scope.

#[local] Set Warnings "-inexact-float".

(** ** Floats *)

Inductive fval : Type :=
| NaN : fval
| Num : Q -> fval.

(** Python's [x == y] on floats: NaN is different from everything,
    itself included. *)
Definition py_eq (x y : fval) : bool :=
  match x, y with
  | Num a, Num b => Qeq_bool a b
  | _, _ => false
  end.

Definition lift1 (f : Q -> Q) (x : fval) : fval :=
  match x with
  | NaN => NaN
  | Num a => Num (Qred (f a))
  end.

Definition lift2 (f : Q -> Q -> Q) (x y : fval) : fval :=
  match x, y with
  | Num a, Num b => Num (Qred (f a b))
  | _, _ => NaN
  end.

Definition fsub : fval -> fval -> fval := lift2 Qminus.
Definition fmul : fval -> fval -> fval := lift2 Qmult.
(** [np.abs] *)
Definition fabs : fval -> fval := lift1 Qabs.
(** [np.maximum]: unlike [np.fmax] it returns NaN when either side is NaN. *)
Definition fmaximum : fval -> fval -> fval := lift2 Qmax.

(** ** Exceptions *)

Inductive exn : Type :=
| ZeroDivisionError
| IndexError
| ValueError (msg : string)
| ProviderError (msg : string).

(** [str(e)] *)
Definition exn_str (e : exn) : string :=
  match e with
  | ZeroDivisionError => "float division by zero"
  | IndexError => "single positional indexer is out-of-bounds"
  | ValueError msg => msg
  | ProviderError msg => msg
  end.

Definition is_zero (x : fval) : bool :=
  match x with
  | NaN => false
  | Num a => Qeq_bool a 0
  end.

(** [x / y] on Python floats: a zero divisor raises whatever the dividend
    is (NaN included); otherwise NaN is contagious. *)
Definition py_div (x y : fval) : exn + fval :=
  if is_zero y then inl ZeroDivisionError
  else inr (lift2 Qdiv x y).

(** ** Bars and columns *)

(** One row of the frame returned by the provider, reduced to the three
    columns the script reads. *)
Record bar : Type := mkBar { High : fval; Low : fval; Close : fval }.

Definition DataFrame : Type := list bar.
Definition Series : Type := list fval.

(** Element-wise operation on two columns sharing one index. *)
Fixpoint zip_with (f : fval -> fval -> fval) (xs ys : Series) : Series :=
  match xs, ys with
  | x :: xs', y :: ys' => f x y :: zip_with f xs' ys'
  | _, _ => []
  end.

(** [Series.shift()]: every value moves one row down, the first row gets
    NaN and the last value is dropped. *)
Definition shift (xs : Series) : Series :=
  match xs with
  | [] => []
  | _ :: _ => NaN :: removelast xs
  end.

(** Lines 40-43 of [calculate_atr_trailing_stop]. *)
Definition true_range (data : DataFrame) : Series :=
  let high := map High data in
  let low := map Low data in
  let close := map Close data in
  let high_low := zip_with fsub high low in
  let high_close := map fabs (zip_with fsub high (shift close)) in
  let low_close := map fabs (zip_with fsub low (shift close)) in
  zip_with fmaximum high_low (zip_with fmaximum high_close low_close).

(** ** Rolling mean *)

(** The rows of the window that ends at row [i]: rows [i - w + 1 .. i],
    cut at the start of the column. *)
Definition window_at (w i : nat) (xs : Series) : Series :=
  skipn (S i - w) (firstn (S i) xs).

(** The valid observations of a window. *)
Fixpoint observations (xs : Series) : list Q :=
  match xs with
  | [] => []
  | NaN :: xs' => observations xs'
  | Num a :: xs' => a :: observations xs'
  end.

Definition Qsum (qs : list Q) : Q := fold_right Qplus 0 qs.

(** Mean of the valid observations, NaN when there are fewer than
    [min_periods = 1] of them. *)
Definition nanmean (xs : Series) : fval :=
  match observations xs with
  | [] => NaN
  | qs => Num (Qred (Qsum qs / inject_Z (Z.of_nat (List.length qs))))
  end.

Definition rolling_mean (w : nat) (xs : Series) : Series :=
  map (fun i => nanmean (window_at w i xs)) (seq 0 (List.length xs)).

(** [xs.rolling(window=period, min_periods=1).mean()]; pandas validates
    the window before computing anything.  pandas carries a running sum
    from one window to the next, so its doubles agree with the means
    below up to rounding only. *)
Definition rolling_min1_mean (period : Z) (xs : Series) : exn + Series :=
  if (period <? 0)%Z then
    inl (ValueError "window must be an integer 0 or greater")
  else if (period <? 1)%Z then
    inl (ValueError "min_periods 1 must be <= window 0")
  else inr (rolling_mean (Z.to_nat period) xs).

(** Line 44. *)
Definition atr_series (data : DataFrame) (period : Z) : exn + Series :=
  rolling_min1_mean period (true_range data).

(** [xs.iloc[-1]] *)
Definition iloc_last {A : Type} (xs : list A) : exn + A :=
  match rev xs with
  | [] => inl IndexError
  | x :: _ => inr x
  end.

(** ** The try block of [calculate_atr_trailing_stop] *)

(** Sequencing of statements that may raise. *)
Definition bind {A B : Type} (c : exn + A) (k : A -> exn + B) : exn + B :=
  match c with
  | inl e => inl e
  | inr a => k a
  end.

Notation "x <- c ;; k" := (bind c (fun x => k))
  (at level 61, c at next level, right associativity).

(** The dictionary returned on success.  The key of the ATR column embeds
    the period, which [ATR_period] records. *)
Record result : Type := mkResult {
  Current_Price : fval;
  ATR_period : Z;
  Current_ATR : fval;
  Suggested_Trailing_Stop : fval;
  Percentage_Below_Current : fval
}.

(** Lines 49 and 55: the stop and its distance from the price, on Python
    floats.  The multiplier is the slider's value, a finite float. *)
Definition derive_stop (current_price current_atr : fval) (multiplier : Q)
  : exn + (fval * fval) :=
  let stop_loss := fsub current_price (fmul (Num multiplier) current_atr) in
  q <- py_div (fsub current_price stop_loss) current_price ;;
  inr (stop_loss, fmul q (Num 100)).

(** Lines 36-56, everything after the fetch.  [inr None] is the early
    [return None] on an empty frame; [inl e] is an exception on its way to
    the handler. *)
Definition atr_trailing_stop_of (data : DataFrame) (multiplier : Q) (period : Z)
  : exn + option result :=
  match data with
  | [] => inr None
  | _ :: _ =>
      atr <- atr_series data period ;;
      current_price <- iloc_last (map Close data) ;;
      current_atr <- iloc_last atr ;;
      sp <- derive_stop current_price current_atr multiplier ;;
      inr (Some (mkResult current_price period current_atr (fst sp) (snd sp)))
  end.

(** ** Fetching *)

(** What the script does to the outside world, in order. *)
Inductive event : Type :=
| Download (ticker lookback : string)
| StWarning (msg : string)
| StError (msg : string)
| Progress (completed total : nat)
| StSuccess (msg : string).

(** The data provider behind [yf.download]: for a ticker and a lookback it
    answers with a frame or raises.  [st.cache_data] memoises
    [fetch_ticker_data] on the same two arguments, which a provider that is
    a function of them already accounts for. *)
Definition provider : Type := string -> string -> exn + DataFrame.

Section Pipeline.

Variable yf_download : provider.

Definition fetch_ticker_data (ticker period : string) : DataFrame * list event :=
  match yf_download ticker period with
  | inr data => (data, [Download ticker period])
  | inl e =>
      ([], [Download ticker period;
            StWarning ("Could not fetch " ++ ticker ++ ": " ++ exn_str e)])
  end.

Definition calculate_atr_trailing_stop (ticker : string) (multiplier : Q) (period : Z)
  : option result * list event :=
  let (data, log) := fetch_ticker_data ticker "6mo" in
  match atr_trailing_stop_of data multiplier period with
  | inr r => (r, log)
  | inl e =>
      (None,
       log ++ [StError ("Error fetching data for " ++ ticker ++ ": " ++ exn_str e)])
  end.

(** ** The analysis loop *)

Definition entry : Type := (string * string)%type.

(** A result with the two keys the loop adds to it. *)
Record row : Type := mkRow { Asset : string; Ticker : string; Values : result }.

(** One iteration of the loop of lines 124-131 (the sleep apart), on the
    results collected and the events emitted so far. *)
Definition analyse_entry (multiplier : Q) (period : Z) (total : nat)
    (acc : list row * list event) (it : nat * entry) : list row * list event :=
  let '(idx, (ticker, description)) := it in
  let (results, log) := acc in
  let (result, log') := calculate_atr_trailing_stop ticker multiplier period in
  let results' :=
    match result with
    | Some r => results ++ [mkRow description ticker r]
    | None => results
    end in
  (results', log ++ log' ++ [Progress (S idx) total]).

Definition enumerate {A : Type} (xs : list A) : list (nat * A) :=
  combine (seq 0 (List.length xs)) xs.

Definition run_analysis (tickers : list entry) (multiplier : Q) (period : Z)
  : list row * list event :=
  fold_left (analyse_entry multiplier period (List.length tickers))
            (enumerate tickers) ([], []).

End Pipeline.

Definition warnings_of (log : list event) : list string :=
  flat_map (fun e => match e with StWarning m => [m] | _ => [] end) log.

Definition errors_of (log : list event) : list string :=
  flat_map (fun e => match e with StError m => [m] | _ => [] end) log.

Definition downloads_of (log : list event) : list (string * string) :=
  flat_map (fun e => match e with Download t p => [(t, p)] | _ => [] end) log.

(** ** The ticker list and its sidebar handlers *)

Definition default_tickers : list entry :=
  [("SGLN.L", "Physical Gold ETF");
   ("IWRD.L", "iShares World ETF");
   ("VWRL.L", "Vanguard World ETF");
   ("IUKD.L", "UKD ETF");
   ("BCOG.L", "Commodities ETF")]%string.

Definition is_lower (c : ascii) : bool :=
  ((nat_of_ascii "a" <=? nat_of_ascii c) && (nat_of_ascii c <=? nat_of_ascii "z"))%nat.

Definition upper_char (c : ascii) : ascii :=
  if is_lower c then ascii_of_nat (nat_of_ascii c - 32) else c.

(** [str.upper()] on the characters of the model: the letters a-z move to
    A-Z and every other character stays.  This is Python's result on
    ASCII text.  Other text is held as its UTF-8 bytes, which stay as they
    are: right for a character without an upper-case form, such as U+0138,
    and not for one with it, such as U+00E9; what is stated about letter
    case is stated for ASCII symbols. *)
Fixpoint upper (s : string) : string :=
  match s with
  | EmptyString => EmptyString
  | String c s' => String (upper_char c) (upper s')
  end.


(** Truth value of a string in a condition. *)
Definition truthy (s : string) : bool :=
  match s with
  | EmptyString => false
  | String _ _ => true
  end.

(** [list.pop(i)] for an index in range. *)
Definition pop {A : Type} (i : nat) (xs : list A) : list A :=
  firstn i xs ++ skipn (S i) xs.

(** What the user did before the script reran.  At most one button is
    down in a run; [Remove i] is the button drawn next to row [i]. *)
Inductive click : Type :=
| NoClick
| AddTicker (new_ticker new_description : string)
| Remove (i : nat)
| ResetToDefaults
| CalculateStops.

(** [st.session_state.tickers], absent until the first run of a session. *)
Definition session_state : Type := option (list entry).

(** One run of the script, as far as the ticker list goes (lines 74-114).
    [default_tickers] is rebuilt by every run and only ever copied into
    the session, so the handlers cannot reach it.  A remove button exists
    only for the rows drawn, hence the range test. *)
Definition script_run (ss : session_state) (c : click) : session_state :=
  let tickers :=
    match ss with
    | None => default_tickers
    | Some t => t
    end in
  match c with
  | AddTicker new_ticker new_description =>
      if truthy new_ticker && truthy new_description
      then Some (tickers ++ [(upper new_ticker, new_description)])
      else Some tickers
  | Remove i =>
      if (i <? List.length tickers)%nat then Some (pop i tickers) else Some tickers
  | ResetToDefaults => Some default_tickers
  | NoClick | CalculateStops => Some tickers
  end.

Definition script_runs (ss : session_state) (cs : list click) : session_state :=
  fold_left script_run cs ss.

(** The list a session holds once the script has run. *)
Definition tickers_of (ss : session_state) : list entry :=
  match ss with
  | None => []
  | Some t => t
  end.

(** ** Reading the column pipeline one bar at a time *)

(** The true range of one bar given the previous close, as the three
    columns of lines 40-42 combine at that row. *)
Definition tr_bar (prev_close : fval) (b : bar) : fval :=
  fmaximum (fsub (High b) (Low b))
           (fmaximum (fabs (fsub (High b) prev_close))
                     (fabs (fsub (Low b) prev_close))).

Fixpoint tr_from (prev_close : fval) (data : DataFrame) : Series :=
  match data with
  | [] => []
  | b :: rest => tr_bar prev_close b :: tr_from (Close b) rest
  end.

Definition bar3 (h l c : Q) : bar := mkBar (Num h) (Num l) (Num c).

Definition example_bars : DataFrame :=
  [bar3 10 10 10; bar3 10 10 10; bar3 12 8 10].

(** A float that, when it is a number, is not negative. *)
Definition nonneg_or_nan (x : fval) : Prop :=
  match x with
  | NaN => True
  | Num a => 0 <= a
  end.

(** ** Sample providers *)

(** Answers every request with two bars, the last one closing at 0. *)
Definition zero_close_provider : provider :=
  fun _ _ => inr [bar3 1 1 1; bar3 1 0 0].

(** Raises for the ticker BAD.L and answers every other request with the
    three bars of the worked example. *)
Definition flaky_provider : provider :=
  fun ticker _ =>
    if String.eqb ticker "BAD.L" then inl (ProviderError "no data found")
    else inr example_bars.

(** A field of the dictionary a run returns, when it returns one. *)
Definition reported (field : result -> fval) (r : exn + option result) : option fval :=
  match r with
  | inr (Some d) => Some (field d)
  | _ => None
  end.

(** [(xs == ys).all()] on two columns of one length. *)
Fixpoint series_eqb (xs ys : Series) : bool :=
  match xs, ys with
  | [], [] => true
  | x :: xs', y :: ys' => py_eq x y && series_eqb xs' ys'
  | _, _ => false
  end.

(** The ATR column compares equal to the true range column. *)
Definition atr_equals_true_range (data : DataFrame) (period : Z) : bool :=
  match atr_series data period with
  | inr atr => series_eqb atr (true_range data)
  | inl _ => false
  end.

(** ** Lines 49 and 55 on binary64 floats *)


(** ** The messages of the button handler *)

(** [str(n)] for a length. *)
Definition str_of_nat (n : nat) : string := NilZero.string_of_uint (Nat.to_uint n).

(** Lines 119-149 and 178-179: the loop, then what the handler says about
    its results.  The table, the metrics, the download button and the
    chart of lines 136-176 only display the rows and are left out. *)
Definition calculate_stops (yf : provider) (tickers : list entry)
    (multiplier : Q) (period : Z) : list row * list event :=
  let (results, log) := run_analysis yf tickers multiplier period in
  match results with
  | [] =>
      (results,
       log ++ [StError "No data could be retrieved. Please check your ticker symbols."])
  | _ :: _ =>
      (results,
       log ++ [StSuccess ("Analysis complete! Analyzed "
                          ++ str_of_nat (List.length results) ++ " assets.")])
  end.

(** Answers the ticker BAD.L with an empty frame, without raising, and
    every other request with the three bars of the worked example. *)
Definition empty_frame_provider : provider :=
  fun ticker _ =>
    if String.eqb ticker "BAD.L" then inr [] else inr example_bars.

(** What a failed fetch leaves in the events: the warning of line 28 when
    the provider raised, nothing when it answered with an empty frame. *)
Definition fetch_warning (ticker : string) (answer : exn + DataFrame) : list event :=
  match answer with
  | inl e => [StWarning ("Could not fetch " ++ ticker ++ ": " ++ exn_str e)]
  | inr _ => []
  end.

(** ** Symbols outside ASCII *)








(** ** The loop, entry by entry *)

(** The row an entry contributes to the results, if any. *)
Definition rows_of (yf : provider) (multiplier : Q) (period : Z) (e : entry)
  : list row :=
  match fst (calculate_atr_trailing_stop yf (fst e) multiplier period) with
  | Some r => [mkRow (snd e) (fst e) r]
  | None => []
  end.

Definition progress_of (log : list event) : list (nat * nat) :=
  flat_map (fun e => match e with Progress c t => [(c, t)] | _ => [] end) log.

(** * Properties *)

(** ** Columns *)

(** The columns of one frame combine row by row: against any column of
    previous closes, the vectorised expression is [tr_bar] on each row. *)
Lemma true_range_rows (b : bar) (rest : DataFrame) (prev : fval) :
  let data := b :: rest in
  let prevs := prev :: removelast (map Close data) in
  zip_with fmaximum
    (zip_with fsub (map High data) (map Low data))
    (zip_with fmaximum
       (map fabs (zip_with fsub (map High data) prevs))
       (map fabs (zip_with fsub (map Low data) prevs)))
  = tr_from prev data.
Proof.
  revert b prev; induction rest as [|b' rest IH]; intros b prev; [reflexivity|].
  specialize (IH b' (Close b)). cbn zeta in IH |- *.
  change (removelast (map Close (b :: b' :: rest)))
    with (Close b :: removelast (map Close (b' :: rest))).
  cbn [map zip_with tr_from]. f_equal. exact IH.
Qed.

Lemma true_range_tr_from (data : DataFrame) : true_range data = tr_from NaN data.
Proof.
  destruct data as [|b rest]; [reflexivity|].
  exact (true_range_rows b rest NaN).
Qed.

Lemma tr_bar_NaN (b : bar) : tr_bar NaN b = NaN.
Proof.
  unfold tr_bar. destruct (High b), (Low b); reflexivity.
Qed.

Lemma tr_from_length (data : DataFrame) (prev : fval) :
  List.length (tr_from prev data) = List.length data.
Proof.
  revert prev; induction data as [|b rest IH]; intros prev; simpl; auto.
Qed.

Lemma true_range_length (data : DataFrame) :
  List.length (true_range data) = List.length data.
Proof. rewrite true_range_tr_from. apply tr_from_length. Qed.

Lemma rolling_mean_length (w : nat) (xs : Series) :
  List.length (rolling_mean w xs) = List.length xs.
Proof. unfold rolling_mean. now rewrite length_map, length_seq. Qed.

(** ** Numbers in lowest terms *)

Lemma Qred_zero (q : Q) : q == 0 -> Qred q = 0.
Proof. intros H. exact (Qred_complete q 0 H). Qed.

Lemma fsub_self (p : Q) : fsub (Num p) (Num p) = Num 0.
Proof. unfold fsub, lift2. f_equal. apply Qred_zero. ring. Qed.

Lemma is_zero_false (p : Q) : ~ p == 0 -> is_zero (Num p) = false.
Proof.
  intros H. unfold is_zero. destruct (Qeq_bool p 0) eqn:E; [|reflexivity].
  apply Qeq_bool_eq in E. contradiction.
Qed.

(** ** The worked example *)

(** C1 as the script computes it: on the bars [10,10,10], [10,10,10],
    [12,8,10] with window 3 the true range column is [NaN, 0, 4] (the
    first row has no previous close), the rolling mean skips the NaN and
    gives [NaN, 0, 2], and with multiplier 4 the stop is 10 - 4*2 = 2,
    which is 80 percent below the price. *)
Theorem example_run_values :
  true_range example_bars = [NaN; Num 0; Num 4]
  /\ atr_series example_bars 3 = inr [NaN; Num 0; Num 2]
  /\ atr_trailing_stop_of example_bars 4 3
     = inr (Some (mkResult (Num 10) 3 (Num 2) (Num 2) (Num 80))).
Proof. repeat split; vm_compute; reflexivity. Qed.

(** The figures of C1 are not the ones the script produces: the column is
    not [0, 0, 4], the means are not [0, 0, 4/3], the stop is 2 and not
    10 - 4*(4/3) = 14/3, and the distance is 80 percent, which is not
    about 53.33. *)
Lemma example_run_not_as_claimed :
  true_range example_bars <> [Num 0; Num 0; Num 4]
  /\ atr_series example_bars 3 <> inr [Num 0; Num 0; Num (4 # 3)]
  /\ reported Suggested_Trailing_Stop (atr_trailing_stop_of example_bars 4 3)
     <> Some (Num (14 # 3))
  /\ reported Percentage_Below_Current (atr_trailing_stop_of example_bars 4 3)
     = Some (Num 80)
  /\ ~ 80 <= 54.
Proof.
  repeat split; try (vm_compute; discriminate).
  intros H. vm_compute in H. apply H. reflexivity.
Qed.

(** ** The first bar *)

(** C2 as the script computes it: on every non-empty frame the true range
    of the first bar is NaN.  The shifted close column has no value
    there, both prior-close terms are NaN, and [np.maximum] returns NaN
    as soon as one side is. *)
Theorem first_true_range_is_nan (b : bar) (rest : DataFrame) :
  nth_error (true_range (b :: rest)) 0 = Some NaN.
Proof.
  rewrite true_range_tr_from. cbn [tr_from nth_error].
  now rewrite tr_bar_NaN.
Qed.

(** On the single bar [12, 8, 10] the first true range is NaN and not
    high - low = 4, neither as a value nor under Python's [==]. *)
Lemma first_true_range_not_high_low :
  nth_error (true_range [bar3 12 8 10]) 0 = Some NaN
  /\ nth_error (true_range [bar3 12 8 10]) 0
     <> Some (fsub (High (bar3 12 8 10)) (Low (bar3 12 8 10)))
  /\ py_eq NaN (fsub (High (bar3 12 8 10)) (Low (bar3 12 8 10))) = false.
Proof.
  repeat split; try reflexivity. vm_compute. discriminate.
Qed.

(** ** A single bar *)

Lemma rolling_mean_single_nan (w : nat) : rolling_mean w [NaN] = [NaN].
Proof.
  unfold rolling_mean, window_at. cbn [List.length seq map firstn].
  destruct (1 - w)%nat as [|k]; [reflexivity|].
  cbn [skipn]. now destruct k.
Qed.

(** C3 as the script computes it: for a single-bar frame and every window
    of at least one row, the true range column and the ATR column are
    both [NaN], and so are the ATR, the stop and the distance that the
    script reports when the close is not zero. *)
Theorem single_bar_atr_is_nan (b : bar) (multiplier : Q) (period : Z) :
  (1 <= period)%Z ->
  true_range [b] = [NaN]
  /\ atr_series [b] period = inr [NaN]
  /\ (is_zero (Close b) = false ->
      atr_trailing_stop_of [b] multiplier period
      = inr (Some (mkResult (Close b) period NaN NaN NaN))).
Proof.
  intros Hp.
  assert (Htr : true_range [b] = [NaN]).
  { rewrite true_range_tr_from. cbn [tr_from]. now rewrite tr_bar_NaN. }
  assert (Hatr : atr_series [b] period = inr [NaN]).
  { unfold atr_series, rolling_min1_mean. rewrite Htr.
    destruct (period <? 0)%Z eqn:E0; [apply Z.ltb_lt in E0; lia|].
    destruct (period <? 1)%Z eqn:E1; [apply Z.ltb_lt in E1; lia|].
    now rewrite rolling_mean_single_nan. }
  repeat split; auto.
  intros Hz. unfold atr_trailing_stop_of. rewrite Hatr.
  cbn [bind iloc_last map rev app]. unfold derive_stop, py_div.
  assert (Hs : fsub (Close b) (fmul (Num multiplier) NaN) = NaN)
    by (destruct (Close b); reflexivity).
  rewrite Hs, Hz. cbn [bind fst snd].
  assert (Hd : fsub (Close b) NaN = NaN) by (destruct (Close b); reflexivity).
  rewrite Hd. reflexivity.
Qed.

Lemma single_bar_atr_is_nan_witness :
  (1 <= 28)%Z
  /\ true_range [bar3 12 8 10] = [NaN]
  /\ atr_series [bar3 12 8 10] 28 = inr [NaN]
  /\ atr_trailing_stop_of [bar3 12 8 10] 4 28
     = inr (Some (mkResult (Num 10) 28 NaN NaN NaN)).
Proof.
  assert (Hp : (1 <= 28)%Z) by lia.
  destruct (single_bar_atr_is_nan (bar3 12 8 10) 4 28 Hp) as (Htr & Hatr & Hres).
  exact (conj Hp (conj Htr (conj Hatr (Hres eq_refl)))).
Defined.

(** On the single bar [12, 8, 10] with window 3 the ATR column is [NaN]:
    it does not compare equal to the true range column, and it is not the
    bar's range 12 - 8 = 4. *)
Lemma single_bar_atr_not_true_range :
  atr_equals_true_range [bar3 12 8 10] 3 = false
  /\ atr_series [bar3 12 8 10] 3 = inr [NaN]
  /\ atr_series [bar3 12 8 10] 3
     <> inr [fsub (High (bar3 12 8 10)) (Low (bar3 12 8 10))].
Proof.
  repeat split; try reflexivity. vm_compute. discriminate.
Qed.

(** ** Windows *)

Lemma window_at_incl (w i : nat) (xs : Series) (x : fval) :
  In x (window_at w i xs) -> In x xs.
Proof.
  unfold window_at. intros H.
  rewrite <- (firstn_skipn (S i) xs). apply in_or_app. left.
  rewrite <- (firstn_skipn (S i - w) (firstn (S i) xs)). apply in_or_app. now right.
Qed.

(** A window of at least one row contains the row it ends at. *)
Lemma window_at_current (w i : nat) (xs : Series) (x : fval) :
  (1 <= w)%nat -> nth_error xs i = Some x -> In x (window_at w i xs).
Proof.
  intros Hw Hx. unfold window_at.
  apply nth_error_In with (n := (i - (S i - w))%nat).
  rewrite nth_error_skipn, nth_error_firstn.
  replace (S i - w + (i - (S i - w)))%nat with i by lia.
  destruct (Nat.ltb_spec i (S i)); [exact Hx | lia].
Qed.

Lemma Qsum_zeros (qs : list Q) : Forall (fun q => q = 0) qs -> Qsum qs == 0.
Proof.
  induction 1 as [|q qs Hq _ IH]; [reflexivity|].
  unfold Qsum in *. cbn [fold_right]. rewrite IH, Hq. reflexivity.
Qed.

Lemma observations_zeros (xs : Series) :
  Forall (fun x => x = NaN \/ x = Num 0) xs ->
  Forall (fun q => q = 0) (observations xs).
Proof.
  induction 1 as [|x xs [-> | ->] _ IH]; cbn [observations]; auto.
Qed.

Lemma observations_In (xs : Series) (q : Q) :
  In (Num q) xs -> In q (observations xs).
Proof.
  induction xs as [|x xs IH]; [easy|].
  intros [-> | H]; [now left|].
  destruct x; cbn [observations]; [|right]; auto.
Qed.

(** The mean of a window that holds zeros and missing values only, and at
    least one zero, is zero. *)
Lemma nanmean_zeros (xs : Series) :
  Forall (fun x => x = NaN \/ x = Num 0) xs -> In (Num 0) xs ->
  nanmean xs = Num 0.
Proof.
  intros Hall Hin. unfold nanmean.
  pose proof (observations_zeros xs Hall) as Hz.
  pose proof (observations_In xs 0 Hin) as Ho.
  destruct (observations xs) as [|q qs]; [contradiction|].
  f_equal. apply Qred_zero. rewrite (Qsum_zeros _ Hz).
  unfold Qdiv. ring.
Qed.

(** ** A flat price *)

Lemma tr_from_flat (p : Q) (k : nat) :
  tr_from (Num p) (repeat (bar3 p p p) k) = repeat (Num 0) k.
Proof.
  induction k as [|k IH]; [reflexivity|].
  cbn [repeat tr_from]. change (Close (bar3 p p p)) with (Num p).
  rewrite IH. f_equal.
  unfold tr_bar, bar3. cbn [High Low Close]. rewrite fsub_self. reflexivity.
Qed.

Lemma true_range_flat (p : Q) (k : nat) :
  true_range (repeat (bar3 p p p) (S k)) = NaN :: repeat (Num 0) k.
Proof.
  rewrite true_range_tr_from. cbn [repeat tr_from].
  change (Close (bar3 p p p)) with (Num p).
  rewrite tr_bar_NaN. f_equal. apply tr_from_flat.
Qed.

Lemma map_seq_succ_const {A : Type} (f : nat -> A) (a : A) (k s : nat) :
  (forall j, f (S j) = a) -> map f (seq (S s) k) = repeat a k.
Proof.
  intros Hf. revert s; induction k as [|k IH]; intros s; [reflexivity|].
  cbn [seq map repeat]. now rewrite Hf, IH.
Qed.

Lemma rolling_mean_nan_zeros (w k : nat) :
  (1 <= w)%nat ->
  rolling_mean w (NaN :: repeat (Num 0) k) = NaN :: repeat (Num 0) k.
Proof.
  intros Hw. set (xs := NaN :: repeat (Num 0) k).
  set (g := fun i : nat => match i with O => NaN | S _ => Num 0 end).
  assert (Hg : xs = map g (seq 0 (S k))).
  { unfold xs. cbn [seq map g]. f_equal. symmetry.
    apply map_seq_succ_const. reflexivity. }
  unfold rolling_mean.
  assert (Hlen : List.length xs = S k)
    by (unfold xs; cbn [List.length]; now rewrite repeat_length).
  transitivity (map g (seq 0 (S k))); [|now symmetry].
  rewrite Hlen. apply map_ext_in. intros i Hi.
  apply in_seq in Hi. destruct i as [|j].
  - unfold window_at, xs. cbn [firstn g].
    replace (1 - w)%nat with 0%nat by lia. reflexivity.
  - cbn [g]. apply nanmean_zeros.
    + apply Forall_forall. intros x Hx. apply window_at_incl in Hx.
      destruct Hx as [<- | Hx]; [now left|].
      apply repeat_spec in Hx. now right.
    + apply window_at_current; [exact Hw|].
      unfold xs. cbn [nth_error].
      apply nth_error_repeat. lia.
Qed.

Lemma iloc_last_repeat {A : Type} (a : A) (k : nat) :
  iloc_last (repeat a (S k)) = inr a.
Proof. unfold iloc_last. now rewrite rev_repeat. Qed.

Lemma iloc_last_nan_zeros (k : nat) :
  iloc_last (NaN :: repeat (Num 0) (S k)) = inr (Num 0).
Proof.
  unfold iloc_last. cbn [rev]. now rewrite rev_repeat.
Qed.

Lemma rolling_min1_mean_ok (period : Z) (xs : Series) :
  (1 <= period)%Z ->
  rolling_min1_mean period xs = inr (rolling_mean (Z.to_nat period) xs).
Proof.
  intros Hp. unfold rolling_min1_mean.
  destruct (period <? 0)%Z eqn:E0; [apply Z.ltb_lt in E0; lia|].
  destruct (period <? 1)%Z eqn:E1; [apply Z.ltb_lt in E1; lia|].
  reflexivity.
Qed.

(** C4 as the script computes it: on a frame of at least two bars that
    all have high = low = close = one price [p] other than zero, and for a
    window of at least one row, the true range is 0 on every bar after the
    first (NaN on the first), the ATR is 0 on every bar after the first,
    the reported ATR is 0, the stop equals the current price and the
    distance is 0. *)
Theorem flat_series_zero_volatility (p multiplier : Q) (n : nat) (period : Z) :
  ~ p == 0 -> (1 <= period)%Z ->
  let data := repeat (bar3 p p p) (S (S n)) in
  true_range data = NaN :: repeat (Num 0) (S n)
  /\ atr_series data period = inr (NaN :: repeat (Num 0) (S n))
  /\ exists stop,
       atr_trailing_stop_of data multiplier period
       = inr (Some (mkResult (Num p) period (Num 0) (Num stop) (Num 0)))
       /\ stop == p.
Proof.
  intros Hp Hw data.
  assert (Htr : true_range data = NaN :: repeat (Num 0) (S n))
    by apply true_range_flat.
  assert (Hatr : atr_series data period = inr (NaN :: repeat (Num 0) (S n))).
  { unfold atr_series. rewrite Htr, rolling_min1_mean_ok by exact Hw.
    rewrite rolling_mean_nan_zeros by lia. reflexivity. }
  split; [exact Htr|]. split; [exact Hatr|].
  exists (Qred (p - Qred (multiplier * 0))). split.
  - unfold atr_trailing_stop_of. unfold data at 1. cbn [repeat].
    fold (repeat (bar3 p p p) (S (S n))). fold data.
    rewrite Hatr. cbn [bind]. unfold data at 1.
    rewrite map_repeat, iloc_last_repeat. cbn [bind Close bar3].
    rewrite iloc_last_nan_zeros. cbn [bind].
    unfold derive_stop, py_div. rewrite (is_zero_false p Hp).
    cbn [bind fst snd fsub fmul lift2]. do 3 f_equal.
    f_equal. apply Qred_zero. rewrite !Qred_correct. field. exact Hp.
  - rewrite !Qred_correct. ring.
Qed.

Lemma flat_series_zero_volatility_witness :
  ~ 5 == 0 /\ (1 <= 28)%Z
  /\ true_range (repeat (bar3 5 5 5) 2) = NaN :: repeat (Num 0) 1
  /\ atr_series (repeat (bar3 5 5 5) 2) 28 = inr (NaN :: repeat (Num 0) 1)
  /\ exists stop,
       atr_trailing_stop_of (repeat (bar3 5 5 5) 2) 4 28
       = inr (Some (mkResult (Num 5) 28 (Num 0) (Num stop) (Num 0)))
       /\ stop == 5.
Proof.
  assert (H5 : ~ 5 == 0) by (intros H; discriminate H).
  assert (Hw : (1 <= 28)%Z) by lia.
  exact (conj H5 (conj Hw (flat_series_zero_volatility 5 4 0 28 H5 Hw))).
Defined.

(** Where C4 as worded fails.  Two flat bars at 5: the first true range is
    NaN, not 0.  One flat bar: the reported ATR is NaN.  Bars flat at 0:
    the division raises and no stop is reported.  Bars that are each flat
    but at different prices (10 then 12): the second true range is 2. *)
Lemma flat_series_not_all_zero :
  true_range [bar3 5 5 5; bar3 5 5 5] = [NaN; Num 0]
  /\ true_range [bar3 5 5 5; bar3 5 5 5] <> [Num 0; Num 0]
  /\ reported Current_ATR (atr_trailing_stop_of [bar3 5 5 5] 4 3) = Some NaN
  /\ atr_trailing_stop_of [bar3 0 0 0; bar3 0 0 0] 4 3 = inl ZeroDivisionError
  /\ true_range [bar3 10 10 10; bar3 12 12 12] = [NaN; Num 2].
Proof.
  repeat split; try (vm_compute; reflexivity). vm_compute. discriminate.
Qed.

(** ** The stop and its distance *)






(** ** Failures of one entry *)

Lemma iloc_last_nonempty {A : Type} (xs : list A) :
  xs <> [] -> exists x, iloc_last xs = inr x.
Proof.
  intros Hne. unfold iloc_last. destruct (rev xs) as [|x l] eqn:E.
  - apply (f_equal (@rev A)) in E. rewrite rev_involutive in E. contradiction.
  - now exists x.
Qed.

Lemma atr_series_nonempty (b : bar) (rest : DataFrame) (period : Z) (atr : Series) :
  atr_series (b :: rest) period = inr atr -> atr <> [].
Proof.
  unfold atr_series, rolling_min1_mean.
  destruct (period <? 0)%Z; [discriminate|].
  destruct (period <? 1)%Z; [discriminate|].
  intros H. injection H as <-. intros E.
  apply (f_equal (@List.length fval)) in E.
  rewrite rolling_mean_length, true_range_length in E. discriminate E.
Qed.

(** A zero close on the last bar makes the try block raise, and the
    exception is the division's whenever the window is valid. *)
Lemma zero_close_raises (data : DataFrame) (multiplier : Q) (period : Z) (price : fval) :
  iloc_last (map Close data) = inr price -> is_zero price = true ->
  exists e,
    atr_trailing_stop_of data multiplier period = inl e
    /\ ((1 <= period)%Z -> e = ZeroDivisionError).
Proof.
  intros Hlast Hz. destruct data as [|b rest]; [discriminate Hlast|].
  unfold atr_trailing_stop_of.
  destruct (atr_series (b :: rest) period) as [e | atr] eqn:Hatr.
  - exists e. split; [reflexivity|]. intros Hp.
    unfold atr_series in Hatr. rewrite rolling_min1_mean_ok in Hatr by exact Hp.
    discriminate Hatr.
  - exists ZeroDivisionError. split; [|reflexivity].
    cbn [bind]. rewrite Hlast. cbn [bind].
    destruct (iloc_last_nonempty atr (atr_series_nonempty _ _ _ _ Hatr)) as [a ->].
    cbn [bind]. unfold derive_stop, py_div. now rewrite Hz.
Qed.

(** With a usable window, a non-empty frame and a last close other than
    zero, the try block returns a dictionary. *)
Lemma nonzero_close_returns (data : DataFrame) (multiplier : Q) (period : Z) (price : fval) :
  (1 <= period)%Z ->
  iloc_last (map Close data) = inr price -> is_zero price = false ->
  exists r, atr_trailing_stop_of data multiplier period = inr (Some r).
Proof.
  intros Hp Hlast Hz. destruct data as [|b rest]; [discriminate Hlast|].
  unfold atr_trailing_stop_of.
  destruct (atr_series (b :: rest) period) as [e | atr] eqn:Hatr.
  - unfold atr_series in Hatr. rewrite rolling_min1_mean_ok in Hatr by exact Hp.
    discriminate Hatr.
  - cbn [bind]. rewrite Hlast. cbn [bind].
    destruct (iloc_last_nonempty atr (atr_series_nonempty _ _ _ _ Hatr)) as [a ->].
    cbn [bind]. unfold derive_stop, py_div. rewrite Hz. cbn [bind].
    eexists. reflexivity.
Qed.

Lemma calculate_fetch_failed (yf : provider) (ticker : string) (multiplier : Q)
    (period : Z) (e : exn) :
  yf ticker "6mo"%string = inl e ->
  calculate_atr_trailing_stop yf ticker multiplier period
  = (None, [Download ticker "6mo";
            StWarning ("Could not fetch " ++ ticker ++ ": " ++ exn_str e)]).
Proof.
  intros H. unfold calculate_atr_trailing_stop, fetch_ticker_data. now rewrite H.
Qed.

Lemma calculate_returns (yf : provider) (ticker : string) (multiplier : Q)
    (period : Z) (data : DataFrame) (r : option result) :
  yf ticker "6mo"%string = inr data ->
  atr_trailing_stop_of data multiplier period = inr r ->
  calculate_atr_trailing_stop yf ticker multiplier period
  = (r, [Download ticker "6mo"]).
Proof.
  intros H Hr. unfold calculate_atr_trailing_stop, fetch_ticker_data.
  now rewrite H, Hr.
Qed.

Lemma calculate_raises (yf : provider) (ticker : string) (multiplier : Q)
    (period : Z) (data : DataFrame) (e : exn) :
  yf ticker "6mo"%string = inr data ->
  atr_trailing_stop_of data multiplier period = inl e ->
  calculate_atr_trailing_stop yf ticker multiplier period
  = (None, [Download ticker "6mo";
            StError ("Error fetching data for " ++ ticker ++ ": " ++ exn_str e)]).
Proof.
  intros H He. unfold calculate_atr_trailing_stop, fetch_ticker_data.
  now rewrite H, He.
Qed.

(** C6: when the frame fetched for an entry ends on a close of 0, the
    division raises, the handler reports the failure with [st.error] and
    returns no dictionary, and the analysis loop adds no row for the
    entry; no NaN or infinite distance reaches the results. *)
Theorem zero_price_is_a_failure (yf : provider) (ticker description : string)
    (multiplier : Q) (period : Z) (data : DataFrame) (price : fval) :
  yf ticker "6mo"%string = inr data ->
  iloc_last (map Close data) = inr price ->
  is_zero price = true ->
  exists e,
    calculate_atr_trailing_stop yf ticker multiplier period
    = (None, [Download ticker "6mo";
              StError ("Error fetching data for " ++ ticker ++ ": " ++ exn_str e)])
    /\ ((1 <= period)%Z -> e = ZeroDivisionError)
    /\ fst (run_analysis yf [(ticker, description)] multiplier period) = [].
Proof.
  intros Hyf Hlast Hz.
  destruct (zero_close_raises data multiplier period price Hlast Hz) as (e & He & Hdiv).
  exists e. pose proof (calculate_raises yf ticker multiplier period data e Hyf He) as Hc.
  split; [exact Hc|]. split; [exact Hdiv|].
  unfold run_analysis, enumerate. cbn [List.length seq combine fold_left analyse_entry].
  rewrite Hc. reflexivity.
Qed.

Lemma zero_price_is_a_failure_witness :
  zero_close_provider "ZERO.L"%string "6mo"%string = inr [bar3 1 1 1; bar3 1 0 0]
  /\ iloc_last (map Close [bar3 1 1 1; bar3 1 0 0]) = inr (Num 0)
  /\ is_zero (Num 0) = true
  /\ exists e,
       calculate_atr_trailing_stop zero_close_provider "ZERO.L" 4 28
       = (None, [Download "ZERO.L" "6mo";
                 StError ("Error fetching data for " ++ "ZERO.L" ++ ": " ++ exn_str e)])
       /\ ((1 <= 28)%Z -> e = ZeroDivisionError)
       /\ fst (run_analysis zero_close_provider
                 [("ZERO.L"%string, "Flat at zero"%string)] 4 28) = [].
Proof.
  exact (conj eq_refl (conj eq_refl (conj eq_refl
    (zero_price_is_a_failure zero_close_provider "ZERO.L" "Flat at zero" 4 28
       [bar3 1 1 1; bar3 1 0 0] (Num 0) eq_refl eq_refl eq_refl)))).
Defined.

Lemma calculate_empty_frame (yf : provider) (ticker : string) (multiplier : Q)
    (period : Z) :
  yf ticker "6mo"%string = inr [] ->
  calculate_atr_trailing_stop yf ticker multiplier period
  = (None, [Download ticker "6mo"]).
Proof.
  intros H. unfold calculate_atr_trailing_stop, fetch_ticker_data. now rewrite H.
Qed.

(** C7 as the script behaves: in a list of three entries where the fetch
    of the second fails, by the provider raising or by its answering with
    an empty frame, and the other two get frames the calculation accepts
    (non-empty, last close other than zero, window of at least one row),
    the run goes to its end, keeps exactly two rows, for the first and the
    third entry in that order, reports no error and announces two assets.
    It emits exactly one warning, naming the second entry, when the
    provider raised, and no warning at all when the frame was empty. *)
Theorem fetch_failure_is_isolated (yf : provider) (e1 e2 e3 : entry)
    (multiplier : Q) (period : Z) (d1 d3 : DataFrame) (p1 p3 : fval)
    (answer2 : exn + DataFrame) :
  (1 <= period)%Z ->
  yf (fst e1) "6mo"%string = inr d1 ->
  iloc_last (map Close d1) = inr p1 -> is_zero p1 = false ->
  yf (fst e2) "6mo"%string = answer2 ->
  (answer2 = inr [] \/ exists err, answer2 = inl err) ->
  yf (fst e3) "6mo"%string = inr d3 ->
  iloc_last (map Close d3) = inr p3 -> is_zero p3 = false ->
  exists r1 r3 log,
    run_analysis yf [e1; e2; e3] multiplier period
    = ([mkRow (snd e1) (fst e1) r1; mkRow (snd e3) (fst e3) r3], log)
    /\ calculate_stops yf [e1; e2; e3] multiplier period
       = ([mkRow (snd e1) (fst e1) r1; mkRow (snd e3) (fst e3) r3],
          log ++ [StSuccess "Analysis complete! Analyzed 2 assets."])
    /\ log = [Download (fst e1) "6mo"; Progress 1 3; Download (fst e2) "6mo"]
             ++ fetch_warning (fst e2) answer2
             ++ [Progress 2 3; Download (fst e3) "6mo"; Progress 3 3]
    /\ warnings_of log
       = match answer2 with
         | inl err => ["Could not fetch " ++ fst e2 ++ ": " ++ exn_str err]%string
         | inr _ => []
         end
    /\ errors_of log = [].
Proof.
  intros Hp H1 Hl1 Hz1 H2 Hfail H3 Hl3 Hz3.
  destruct e1 as [t1 a1], e2 as [t2 a2], e3 as [t3 a3]. cbn [fst snd] in *.
  destruct (nonzero_close_returns d1 multiplier period p1 Hp Hl1 Hz1) as [r1 Hr1].
  destruct (nonzero_close_returns d3 multiplier period p3 Hp Hl3 Hz3) as [r3 Hr3].
  pose proof (calculate_returns yf t1 multiplier period d1 _ H1 Hr1) as Hc1.
  pose proof (calculate_returns yf t3 multiplier period d3 _ H3 Hr3) as Hc3.
  assert (Hc2 : calculate_atr_trailing_stop yf t2 multiplier period
                = (None, Download t2 "6mo" :: fetch_warning t2 answer2)).
  { destruct Hfail as [-> | [err ->]].
    - now apply calculate_empty_frame.
    - now apply calculate_fetch_failed. }
  assert (Hrun : run_analysis yf ([(t1, a1); (t2, a2); (t3, a3)] : list entry)
                              multiplier period
          = ([mkRow a1 t1 r1; mkRow a3 t3 r3],
             [Download t1 "6mo"; Progress 1 3; Download t2 "6mo"]
             ++ fetch_warning t2 answer2
             ++ [Progress 2 3; Download t3 "6mo"; Progress 3 3])).
  { unfold run_analysis, enumerate.
    cbn [List.length seq combine fold_left analyse_entry].
    rewrite Hc1, Hc2, Hc3. cbn [app]. now rewrite <- app_assoc. }
  exists r1, r3. eexists. split; [exact Hrun|].
  split; [|split; [reflexivity|]].
  - unfold calculate_stops.
    match goal with
    | |- context [run_analysis ?y ?l ?m ?p] =>
        replace (run_analysis y l m p)
          with ([mkRow a1 t1 r1; mkRow a3 t3 r3],
                [Download t1 "6mo"; Progress 1 3; Download t2 "6mo"]
                ++ fetch_warning t2 answer2
                ++ [Progress 2 3; Download t3 "6mo"; Progress 3 3])
          by (symmetry; exact Hrun)
    end.
    reflexivity.
  - destruct answer2 as [err | d]; split; reflexivity.
Qed.

Lemma fetch_failure_is_isolated_witness :
  (1 <= 3)%Z
  /\ flaky_provider "SGLN.L"%string "6mo"%string = inr example_bars
  /\ iloc_last (map Close example_bars) = inr (Num 10)
  /\ is_zero (Num 10) = false
  /\ flaky_provider "BAD.L"%string "6mo"%string = inl (ProviderError "no data found")
  /\ (inl (ProviderError "no data found") = @inr exn DataFrame []
      \/ exists err, @inl exn DataFrame (ProviderError "no data found") = inl err)
  /\ flaky_provider "IWRD.L"%string "6mo"%string = inr example_bars
  /\ exists r1 r3 log,
       run_analysis flaky_provider
         [("SGLN.L", "Physical Gold ETF"); ("BAD.L", "Delisted");
          ("IWRD.L", "iShares World ETF")]%string 4 3
       = ([mkRow "Physical Gold ETF" "SGLN.L" r1;
           mkRow "iShares World ETF" "IWRD.L" r3], log)
       /\ calculate_stops flaky_provider
            [("SGLN.L", "Physical Gold ETF"); ("BAD.L", "Delisted");
             ("IWRD.L", "iShares World ETF")]%string 4 3
          = ([mkRow "Physical Gold ETF" "SGLN.L" r1;
              mkRow "iShares World ETF" "IWRD.L" r3],
             log ++ [StSuccess "Analysis complete! Analyzed 2 assets."])
       /\ log = [Download "SGLN.L" "6mo"; Progress 1 3; Download "BAD.L" "6mo"]
                ++ fetch_warning "BAD.L" (inl (ProviderError "no data found"))
                ++ [Progress 2 3; Download "IWRD.L" "6mo"; Progress 3 3]
       /\ warnings_of log = ["Could not fetch BAD.L: no data found"]%string
       /\ errors_of log = [].
Proof.
  assert (Hp : (1 <= 3)%Z) by lia.
  assert (Hf : inl (ProviderError "no data found") = @inr exn DataFrame []
               \/ exists err, @inl exn DataFrame (ProviderError "no data found") = inl err)
    by (right; eexists; reflexivity).
  exact (conj Hp (conj eq_refl (conj eq_refl (conj eq_refl (conj eq_refl (conj Hf
    (conj eq_refl
    (fetch_failure_is_isolated flaky_provider
       ("SGLN.L", "Physical Gold ETF")%string ("BAD.L", "Delisted")%string
       ("IWRD.L", "iShares World ETF")%string
       4 3 example_bars example_bars
       (Num 10) (Num 10) (inl (ProviderError "no data found"))
       Hp eq_refl eq_refl eq_refl eq_refl Hf eq_refl eq_refl eq_refl)))))))).
Defined.

(** With an empty frame for the second entry the fetch fails and the run
    keeps its two rows, but it emits no warning, not one. *)
Lemma empty_frame_gives_no_warning :
  empty_frame_provider "BAD.L"%string "6mo"%string = inr []
  /\ fst (calculate_atr_trailing_stop empty_frame_provider "BAD.L" 4 3) = None
  /\ List.length
       (fst (run_analysis empty_frame_provider
               [("SGLN.L", "Physical Gold ETF"); ("BAD.L", "Delisted");
                ("IWRD.L", "iShares World ETF")]%string 4 3)) = 2%nat
  /\ warnings_of
       (snd (calculate_stops empty_frame_provider
               [("SGLN.L", "Physical Gold ETF"); ("BAD.L", "Delisted");
                ("IWRD.L", "iShares World ETF")]%string 4 3)) = []
  /\ List.length
       (warnings_of
          (snd (run_analysis empty_frame_provider
                  [("SGLN.L", "Physical Gold ETF"); ("BAD.L", "Delisted");
                   ("IWRD.L", "iShares World ETF")]%string 4 3))) <> 1%nat.
Proof.
  repeat split; try (vm_compute; reflexivity). vm_compute. discriminate.
Qed.

(** ** The ticker list *)

(** C8: whatever clicks came before, in whatever session, a run with the
    reset button down leaves the session holding exactly the five default
    entries, in their order, which is also what a fresh session holds
    after its first run. *)
Theorem reset_restores_defaults (ss : session_state) (cs : list click) :
  script_run (script_runs ss cs) ResetToDefaults = script_run None NoClick
  /\ tickers_of (script_run (script_runs ss cs) ResetToDefaults)
     = [("SGLN.L", "Physical Gold ETF");
        ("IWRD.L", "iShares World ETF");
        ("VWRL.L", "Vanguard World ETF");
        ("IUKD.L", "UKD ETF");
        ("BCOG.L", "Commodities ETF")]%string
  /\ List.length (tickers_of (script_run (script_runs ss cs) ResetToDefaults)) = 5%nat.
Proof.
  generalize (script_runs ss cs) as s. intros s.
  destruct s; repeat split.
Qed.













(** ** The lookback *)

(** C10: for every provider, ticker, multiplier and ATR period the
    calculation asks for the ticker's bars exactly once, with the lookback
    "6mo".  The frame it computes on is the provider's answer to that
    request, an empty one if the provider raised: the result is the try
    block run on that answer.  Nothing else of the provider counts, so
    two providers that answer this one request alike give the same
    calculation, whatever the period and whatever they would answer for
    other lookbacks. *)
Theorem lookback_is_six_months (yf : provider) (ticker : string)
    (multiplier : Q) (period : Z) :
  downloads_of (snd (calculate_atr_trailing_stop yf ticker multiplier period))
  = [(ticker, "6mo"%string)]
  /\ fst (fetch_ticker_data yf ticker "6mo")
     = match yf ticker "6mo"%string with
       | inr data => data
       | inl _ => []
       end
  /\ fst (calculate_atr_trailing_stop yf ticker multiplier period)
     = match yf ticker "6mo"%string with
       | inr data =>
           match atr_trailing_stop_of data multiplier period with
           | inr r => r
           | inl _ => None
           end
       | inl _ => None
       end
  /\ forall yf' : provider,
       yf' ticker "6mo"%string = yf ticker "6mo"%string ->
       calculate_atr_trailing_stop yf' ticker multiplier period
       = calculate_atr_trailing_stop yf ticker multiplier period.
Proof.
  split; [|split; [|split]].
  - unfold calculate_atr_trailing_stop, fetch_ticker_data.
    destruct (yf ticker "6mo"%string) as [e | data]; cbn [fst snd]; [reflexivity|].
    destruct (atr_trailing_stop_of data multiplier period); reflexivity.
  - unfold fetch_ticker_data. now destruct (yf ticker "6mo"%string).
  - unfold calculate_atr_trailing_stop, fetch_ticker_data.
    destruct (yf ticker "6mo"%string) as [e | data]; cbn [fst snd]; [reflexivity|].
    destruct (atr_trailing_stop_of data multiplier period); reflexivity.
  - intros yf' H. unfold calculate_atr_trailing_stop, fetch_ticker_data.
    now rewrite H.
Qed.

(** ** Sign of the ATR *)

Lemma Qred_nonneg (q : Q) : 0 <= q -> 0 <= Qred q.
Proof. intros H. now rewrite Qred_correct. Qed.

Lemma tr_bar_nonneg (prev : fval) (b : bar) : nonneg_or_nan (tr_bar prev b).
Proof.
  unfold tr_bar. destruct (High b) as [|h], (Low b) as [|l], prev as [|c];
    try exact I.
  cbn [fsub fabs fmaximum lift1 lift2 nonneg_or_nan].
  apply Qred_nonneg.
  eapply Qle_trans; [|apply Q.le_max_r].
  apply Qred_nonneg.
  eapply Qle_trans; [|apply Q.le_max_l].
  apply Qred_nonneg. apply Qabs_nonneg.
Qed.

Lemma true_range_nonneg (data : DataFrame) :
  Forall nonneg_or_nan (true_range data).
Proof.
  rewrite true_range_tr_from. generalize NaN as prev.
  induction data as [|b rest IH]; intros prev; cbn [tr_from]; constructor.
  - apply tr_bar_nonneg.
  - apply IH.
Qed.

Lemma observations_nonneg (xs : Series) :
  Forall nonneg_or_nan xs -> Forall (fun q => 0 <= q) (observations xs).
Proof.
  induction 1 as [|x xs Hx _ IH]; [constructor|].
  destruct x; cbn [observations]; auto.
Qed.

Lemma Qsum_nonneg (qs : list Q) : Forall (fun q => 0 <= q) qs -> 0 <= Qsum qs.
Proof.
  induction 1 as [|q qs Hq _ IH]; [discriminate|].
  unfold Qsum in *. cbn [fold_right].
  change (0 + 0 <= q + fold_right Qplus 0 qs). now apply Qplus_le_compat.
Qed.

Lemma nanmean_nonneg (xs : Series) :
  Forall nonneg_or_nan xs -> nonneg_or_nan (nanmean xs).
Proof.
  intros H. unfold nanmean.
  pose proof (observations_nonneg xs H) as Ho.
  destruct (observations xs) as [|q qs]; [exact I|].
  cbn [nonneg_or_nan]. apply Qred_nonneg.
  apply Qle_shift_div_l.
  - change 0 with (inject_Z 0). rewrite <- Zlt_Qlt. cbn [List.length]. lia.
  - rewrite Qmult_0_l. now apply Qsum_nonneg.
Qed.

(** Whatever the frame and the window, no ATR the script computes is a
    negative number. *)
Lemma atr_series_nonneg (data : DataFrame) (period : Z) (atr : Series) :
  atr_series data period = inr atr -> Forall nonneg_or_nan atr.
Proof.
  unfold atr_series, rolling_min1_mean.
  destruct (period <? 0)%Z; [discriminate|].
  destruct (period <? 1)%Z; [discriminate|].
  intros H. injection H as <-. unfold rolling_mean.
  apply Forall_forall. intros x Hx. apply in_map_iff in Hx.
  destruct Hx as (i & <- & _). apply nanmean_nonneg.
  apply Forall_forall. intros y Hy. apply window_at_incl in Hy.
  pose proof (true_range_nonneg data) as Htr.
  rewrite Forall_forall in Htr. now apply Htr.
Qed.

(** * Further properties of the code *)

(** ** The true range, row by row *)

Lemma tr_from_nth (data : DataFrame) (c : fval) (i : nat) (prev b : bar) :
  nth_error data i = Some prev -> nth_error data (S i) = Some b ->
  nth_error (tr_from c data) (S i) = Some (tr_bar (Close prev) b).
Proof.
  revert c i; induction data as [|x rest IH]; intros c i Hp Hb; [destruct i; discriminate|].
  destruct i as [|j].
  - cbn in Hp. injection Hp as ->. cbn in Hb.
    destruct rest as [|y rest']; [discriminate|]. cbn in Hb. injection Hb as ->.
    reflexivity.
  - cbn [nth_error] in Hp, Hb. cbn [tr_from nth_error]. now apply IH.
Qed.

Lemma true_range_nth (data : DataFrame) (i : nat) (prev b : bar) :
  nth_error data i = Some prev -> nth_error data (S i) = Some b ->
  nth_error (true_range data) (S i) = Some (tr_bar (Close prev) b).
Proof. rewrite true_range_tr_from. apply tr_from_nth. Qed.

Lemma tr_bar_num (pc h l c : Q) :
  exists q,
    tr_bar (Num pc) (bar3 h l c) = Num q
    /\ q == Qmax (h - l) (Qmax (Qabs (h - pc)) (Qabs (l - pc))).
Proof.
  eexists. split; [reflexivity|].
  rewrite !Qred_correct. reflexivity.
Qed.

(** X1.  On every row after the first, when the bar and the bar before it hold
    numbers, the true range column holds the largest of high - low,
    |high - previous close| and |low - previous close|; in particular it
    is at least each of the three. *)
Theorem true_range_row_formula (data : DataFrame) (i : nat) (ph pl pc h l c : Q) :
  nth_error data i = Some (bar3 ph pl pc) ->
  nth_error data (S i) = Some (bar3 h l c) ->
  exists q,
    nth_error (true_range data) (S i) = Some (Num q)
    /\ q == Qmax (h - l) (Qmax (Qabs (h - pc)) (Qabs (l - pc)))
    /\ h - l <= q /\ Qabs (h - pc) <= q /\ Qabs (l - pc) <= q.
Proof.
  intros Hp Hb.
  destruct (tr_bar_num pc h l c) as (q & Hq & Heq).
  exists q. split.
  - rewrite (true_range_nth data i _ _ Hp Hb). cbn [Close bar3]. now rewrite Hq.
  - split; [exact Heq|]. rewrite Heq. repeat split.
    + apply Q.le_max_l.
    + eapply Qle_trans; [|apply Q.le_max_r]. apply Q.le_max_l.
    + eapply Qle_trans; [|apply Q.le_max_r]. apply Q.le_max_r.
Qed.

Lemma true_range_row_formula_witness :
  nth_error example_bars 1 = Some (bar3 10 10 10)
  /\ nth_error example_bars 2 = Some (bar3 12 8 10)
  /\ exists q,
       nth_error (true_range example_bars) 2 = Some (Num q)
       /\ q == Qmax (12 - 8) (Qmax (Qabs (12 - 10)) (Qabs (8 - 10)))
       /\ 12 - 8 <= q /\ Qabs (12 - 10) <= q /\ Qabs (8 - 10) <= q.
Proof.
  exact (conj eq_refl (conj eq_refl
    (true_range_row_formula example_bars 1 10 10 10 12 8 10 eq_refl eq_refl))).
Defined.

Lemma tr_bar_nan_iff (prev : fval) (b : bar) :
  tr_bar prev b = NaN <-> High b = NaN \/ Low b = NaN \/ prev = NaN.
Proof.
  unfold tr_bar. destruct (High b) as [|h], (Low b) as [|l], prev as [|c];
    cbn [fsub fabs fmaximum lift1 lift2]; split; intros H; auto;
    try discriminate H; destruct H as [H | [H | H]]; discriminate H.
Qed.

(** X2.  A row after the first has a NaN true range exactly when its High, its
    Low or the Close of the row before is NaN: a gap in the data spoils
    the row it is on and, through the previous-close terms, the next. *)
Theorem true_range_row_nan_iff (data : DataFrame) (i : nat) (prev b : bar) :
  nth_error data i = Some prev -> nth_error data (S i) = Some b ->
  (nth_error (true_range data) (S i) = Some NaN
   <-> High b = NaN \/ Low b = NaN \/ Close prev = NaN).
Proof.
  intros Hp Hb. rewrite (true_range_nth data i prev b Hp Hb).
  rewrite <- tr_bar_nan_iff. split; [intros H; now injection H | now intros ->].
Qed.

Lemma true_range_row_nan_iff_witness :
  nth_error [bar3 10 9 10; mkBar (Num 11) NaN (Num 10)] 0 = Some (bar3 10 9 10)
  /\ nth_error [bar3 10 9 10; mkBar (Num 11) NaN (Num 10)] 1
     = Some (mkBar (Num 11) NaN (Num 10))
  /\ (nth_error (true_range [bar3 10 9 10; mkBar (Num 11) NaN (Num 10)]) 1 = Some NaN
      <-> High (mkBar (Num 11) NaN (Num 10)) = NaN
          \/ Low (mkBar (Num 11) NaN (Num 10)) = NaN
          \/ Close (bar3 10 9 10) = NaN).
Proof.
  exact (conj eq_refl (conj eq_refl
    (true_range_row_nan_iff [bar3 10 9 10; mkBar (Num 11) NaN (Num 10)] 0
       (bar3 10 9 10) (mkBar (Num 11) NaN (Num 10)) eq_refl eq_refl))).
Defined.

(** ** Shape of the ATR column *)

(** X3.  When the window is accepted, the ATR column has one value per bar, its
    first value is NaN on a non-empty frame, and no value is a negative
    number. *)
Theorem atr_series_shape (data : DataFrame) (period : Z) (atr : Series) :
  atr_series data period = inr atr ->
  List.length atr = List.length data
  /\ (data <> [] -> nth_error atr 0 = Some NaN)
  /\ Forall nonneg_or_nan atr.
Proof.
  intros H. split; [|split].
  - unfold atr_series, rolling_min1_mean in H.
    destruct (period <? 0)%Z; [discriminate|].
    destruct (period <? 1)%Z; [discriminate|].
    injection H as <-. now rewrite rolling_mean_length, true_range_length.
  - intros Hne. destruct data as [|b rest]; [contradiction|].
    unfold atr_series, rolling_min1_mean in H.
    destruct (period <? 0)%Z; [discriminate|].
    destruct (period <? 1)%Z eqn:E1; [discriminate|].
    injection H as <-. rewrite true_range_tr_from. cbn [tr_from].
    rewrite tr_bar_NaN. unfold rolling_mean, window_at.
    cbn [List.length seq map firstn nth_error].
    destruct (1 - Z.to_nat period)%nat; [reflexivity|].
    cbn [skipn]. now rewrite skipn_nil.
  - exact (atr_series_nonneg data period atr H).
Qed.

Lemma atr_series_shape_witness :
  atr_series example_bars 3 = inr [NaN; Num 0; Num 2]
  /\ List.length [NaN; Num 0; Num 2] = List.length example_bars
  /\ (example_bars <> [] -> nth_error [NaN; Num 0; Num 2] 0 = Some NaN)
  /\ Forall nonneg_or_nan [NaN; Num 0; Num 2].
Proof.
  exact (conj eq_refl (atr_series_shape example_bars 3 [NaN; Num 0; Num 2] eq_refl)).
Defined.

(** ** Outcomes of one calculation *)

Lemma nonempty_never_none (b : bar) (rest : DataFrame) (multiplier : Q) (period : Z) :
  atr_trailing_stop_of (b :: rest) multiplier period <> inr None.
Proof.
  unfold atr_trailing_stop_of.
  destruct (atr_series (b :: rest) period) as [e | atr]; [discriminate|].
  cbn [bind]. destruct (iloc_last (map Close (b :: rest))); [discriminate|].
  cbn [bind]. destruct (iloc_last atr); [discriminate|].
  cbn [bind]. destruct (derive_stop _ _ _); discriminate.
Qed.

Lemma result_period (data : DataFrame) (multiplier : Q) (period : Z) (r : result) :
  atr_trailing_stop_of data multiplier period = inr (Some r) ->
  ATR_period r = period.
Proof.
  destruct data as [|b rest]; [discriminate|]. unfold atr_trailing_stop_of.
  destruct (atr_series (b :: rest) period) as [e | atr]; [discriminate|].
  cbn [bind]. destruct (iloc_last (map Close (b :: rest))); [discriminate|].
  cbn [bind]. destruct (iloc_last atr); [discriminate|].
  cbn [bind]. destruct (derive_stop _ _ _); [discriminate|].
  cbn [bind]. intros H. injection H as <-. reflexivity.
Qed.

(** The four ways a calculation can end. *)
Lemma calculate_cases (yf : provider) (ticker : string) (multiplier : Q) (period : Z) :
  let call := calculate_atr_trailing_stop yf ticker multiplier period in
  let fetched := Download ticker "6mo" in
  (exists e, yf ticker "6mo"%string = inl e
      /\ call = (None, [fetched;
                        StWarning ("Could not fetch " ++ ticker ++ ": " ++ exn_str e)]))
  \/ (yf ticker "6mo"%string = inr [] /\ call = (None, [fetched]))
  \/ (exists data r, yf ticker "6mo"%string = inr data /\ data <> []
        /\ atr_trailing_stop_of data multiplier period = inr (Some r)
        /\ call = (Some r, [fetched]))
  \/ (exists data e, yf ticker "6mo"%string = inr data /\ data <> []
        /\ atr_trailing_stop_of data multiplier period = inl e
        /\ call = (None, [fetched;
                          StError ("Error fetching data for " ++ ticker ++ ": "
                                   ++ exn_str e)])).
Proof.
  cbn zeta. destruct (yf ticker "6mo"%string) as [e | data] eqn:Hyf.
  - left. exists e. split; [reflexivity|]. now apply calculate_fetch_failed.
  - right. destruct data as [|b rest].
    + left. split; [reflexivity|]. now apply (calculate_returns yf ticker _ _ []).
    + right. destruct (atr_trailing_stop_of (b :: rest) multiplier period)
        as [e | [r|]] eqn:Hres.
      * right. exists (b :: rest), e.
        split; [reflexivity|]. split; [discriminate|]. split; [exact Hres|].
        now apply calculate_raises with (data := b :: rest).
      * left. exists (b :: rest), r.
        split; [reflexivity|]. split; [discriminate|]. split; [exact Hres|].
        now apply calculate_returns with (data := b :: rest).
      * now apply nonempty_never_none in Hres.
Qed.

(** X6.  A calculation returns a dictionary exactly when the window is at
    least one row and the provider answered with a frame that is not empty
    and whose last close is not zero. *)
Theorem result_iff_usable_frame (yf : provider) (ticker : string)
    (multiplier : Q) (period : Z) :
  (exists r, fst (calculate_atr_trailing_stop yf ticker multiplier period) = Some r)
  <-> ((1 <= period)%Z
       /\ exists data price,
            yf ticker "6mo"%string = inr data
            /\ iloc_last (map Close data) = inr price
            /\ is_zero price = false).
Proof.
  split.
  - intros [r Hr].
    destruct (calculate_cases yf ticker multiplier period)
      as [(e & _ & Hc) | [(_ & Hc) | [(data & r' & Hyf & Hne & Hres & Hc)
                                      | (data & e & _ & _ & _ & Hc)]]];
      rewrite Hc in Hr; try discriminate Hr.
    destruct (Z_lt_le_dec period 1) as [Hlt | Hge].
    + exfalso. destruct data as [|b rest]; [contradiction|].
      unfold atr_trailing_stop_of, atr_series, rolling_min1_mean in Hres.
      destruct (period <? 0)%Z; [discriminate|].
      destruct (period <? 1)%Z eqn:E; [discriminate|].
      apply Z.ltb_ge in E. lia.
    + split; [exact Hge|].
      assert (Hmap : map Close data <> []) by (destruct data; [contradiction | discriminate]).
      destruct (iloc_last_nonempty _ Hmap) as [price Hprice].
      exists data, price. repeat split; auto.
      destruct (is_zero price) eqn:Hz; [|reflexivity].
      destruct (zero_close_raises data multiplier period price Hprice Hz) as (e & He & _).
      rewrite He in Hres. discriminate.
  - intros (Hp & data & price & Hyf & Hprice & Hz).
    destruct (nonzero_close_returns data multiplier period price Hp Hprice Hz) as [r Hr].
    exists r. now rewrite (calculate_returns yf ticker _ _ data (Some r) Hyf Hr).
Qed.

(** X7.  What a calculation says: it warns exactly when the provider raised,
    reports an error exactly when a frame that is not empty could not be
    computed, and says nothing on an empty frame, which is skipped in
    silence; in all it yields a dictionary or at most one message, never
    both. *)
Theorem calculate_messages (yf : provider) (ticker : string)
    (multiplier : Q) (period : Z) :
  let call := calculate_atr_trailing_stop yf ticker multiplier period in
  (warnings_of (snd call) <> [] <-> exists e, yf ticker "6mo"%string = inl e)
  /\ (errors_of (snd call) <> []
      <-> exists data, yf ticker "6mo"%string = inr data /\ data <> []
                       /\ fst call = None)
  /\ (yf ticker "6mo"%string = inr [] ->
      call = (None, [Download ticker "6mo"]))
  /\ (List.length (warnings_of (snd call)) + List.length (errors_of (snd call))
      + match fst call with Some _ => 1 | None => 0 end <= 1)%nat.
Proof.
  cbn zeta.
  destruct (calculate_cases yf ticker multiplier period)
    as [(e & Hyf & Hc) | [(Hyf & Hc) | [(data & r & Hyf & Hne & Hres & Hc)
                                       | (data & e & Hyf & Hne & Hres & Hc)]]];
    rewrite Hc, Hyf; cbn [fst snd warnings_of errors_of flat_map app List.length];
    (split; [|split; [|split]]); try lia.
  all: try (split; intros H).
  all: try discriminate H.
  all: try (now contradiction H).
  all: try (destruct H as [x H]; discriminate H).
  all: try (destruct H as (x & H & _); discriminate H).
  all: try (destruct H as (x & _ & _ & H); discriminate H).
  all: try (injection H as <-; now contradiction Hne).
  all: try (destruct H as (x & H & Hn & _); injection H as <-; now contradiction Hn).
  all: try reflexivity.
  all: try (now exists e).
  all: try (exists data; auto).
  all: try (intros X; discriminate X).
  all: intros X; injection X as X; contradiction (Hne X).
Qed.

(** ** The loop over a list of any length *)

Lemma warnings_of_app (l1 l2 : list event) :
  warnings_of (l1 ++ l2) = warnings_of l1 ++ warnings_of l2.
Proof. apply flat_map_app. Qed.

Lemma errors_of_app (l1 l2 : list event) :
  errors_of (l1 ++ l2) = errors_of l1 ++ errors_of l2.
Proof. apply flat_map_app. Qed.

Lemma downloads_of_app (l1 l2 : list event) :
  downloads_of (l1 ++ l2) = downloads_of l1 ++ downloads_of l2.
Proof. apply flat_map_app. Qed.

Lemma progress_of_app (l1 l2 : list event) :
  progress_of (l1 ++ l2) = progress_of l1 ++ progress_of l2.
Proof. apply flat_map_app. Qed.

(** What one entry adds to the results and to the events. *)
Lemma entry_contribution (yf : provider) (multiplier : Q) (period : Z) (e : entry) :
  let call := calculate_atr_trailing_stop yf (fst e) multiplier period in
  downloads_of (snd call) = [(fst e, "6mo"%string)]
  /\ progress_of (snd call) = []
  /\ (List.length (rows_of yf multiplier period e)
      + List.length (warnings_of (snd call))
      + List.length (errors_of (snd call)) <= 1)%nat.
Proof.
  cbn zeta. unfold rows_of.
  destruct (calculate_cases yf (fst e) multiplier period)
    as [(x & _ & Hc) | [(_ & Hc) | [(data & r & _ & _ & _ & Hc)
                                    | (data & x & _ & _ & _ & Hc)]]];
    rewrite Hc; cbn; (split; [|split]); try reflexivity; lia.
Qed.

Lemma analyse_entry_eq (yf : provider) (multiplier : Q) (period : Z) (total : nat)
    (rs : list row) (lg : list event) (idx : nat) (e : entry) :
  analyse_entry yf multiplier period total (rs, lg) (idx, e)
  = (rs ++ rows_of yf multiplier period e,
     lg ++ snd (calculate_atr_trailing_stop yf (fst e) multiplier period)
        ++ [Progress (S idx) total]).
Proof.
  destruct e as [t d]. unfold analyse_entry, rows_of. cbn [fst snd].
  destruct (calculate_atr_trailing_stop yf t multiplier period) as [[r|] log'];
    cbn [fst snd]; [reflexivity|]. now rewrite app_nil_r.
Qed.

Lemma fold_analyse_facts (yf : provider) (multiplier : Q) (period : Z) (total : nat)
    (ts : list entry) :
  forall (s : nat) (rs : list row) (lg : list event),
    let res := fold_left (analyse_entry yf multiplier period total)
                         (combine (seq s (List.length ts)) ts) (rs, lg) in
    fst res = rs ++ flat_map (rows_of yf multiplier period) ts
    /\ downloads_of (snd res)
       = downloads_of lg ++ map (fun e => (fst e, "6mo"%string)) ts
    /\ progress_of (snd res)
       = progress_of lg ++ map (fun i => (S i, total)) (seq s (List.length ts))
    /\ (List.length (fst res) + List.length (warnings_of (snd res))
        + List.length (errors_of (snd res))
        <= List.length rs + List.length (warnings_of lg)
           + List.length (errors_of lg) + List.length ts)%nat.
Proof.
  induction ts as [|e ts IH]; intros s rs lg.
  - cbn [List.length seq combine fold_left flat_map map fst snd].
    rewrite !app_nil_r. split; [|split; [|split]]; try reflexivity. lia.
  - cbn [List.length seq combine fold_left]. rewrite analyse_entry_eq.
    destruct (entry_contribution yf multiplier period e) as (Hd & Hpr & Hb).
    cbn zeta in Hd, Hpr, Hb.
    specialize (IH (S s) (rs ++ rows_of yf multiplier period e)
      (lg ++ snd (calculate_atr_trailing_stop yf (fst e) multiplier period)
          ++ [Progress (S s) total])).
    cbn zeta in IH. destruct IH as (H1 & H2 & H3 & H4).
    split; [|split; [|split]].
    + rewrite H1. cbn [flat_map]. now rewrite app_assoc.
    + rewrite H2, !downloads_of_app, Hd. cbn [map downloads_of flat_map app].
      now rewrite <- app_assoc.
    + rewrite H3, !progress_of_app, Hpr. cbn [map progress_of flat_map app].
      now rewrite <- app_assoc.
    + eapply Nat.le_trans; [exact H4|].
      rewrite !warnings_of_app, !errors_of_app, !length_app. cbn. lia.
Qed.

Lemma rows_of_spec (yf : provider) (multiplier : Q) (period : Z) (e : entry) (r : row) :
  In r (rows_of yf multiplier period e) ->
  Ticker r = fst e /\ Asset r = snd e /\ ATR_period (Values r) = period.
Proof.
  unfold rows_of.
  destruct (calculate_cases yf (fst e) multiplier period)
    as [(x & _ & Hc) | [(_ & Hc) | [(data & v & _ & _ & Hres & Hc)
                                    | (data & x & _ & _ & _ & Hc)]]];
    rewrite Hc; cbn [fst]; intros H; try contradiction.
  destruct H as [<- | []]. cbn. repeat split. exact (result_period _ _ _ _ Hres).
Qed.

(** X8.  The loop keeps one row for each entry whose calculation returned a
    dictionary, in the order of the list and with nothing else: entries
    are independent of each other, a symbol listed twice is analysed
    twice, and a failed entry removes only its own row.  Every row carries
    the label and symbol of its entry and the period of the run. *)
Theorem analysis_rows (yf : provider) (tickers : list entry)
    (multiplier : Q) (period : Z) :
  fst (run_analysis yf tickers multiplier period)
  = flat_map (rows_of yf multiplier period) tickers
  /\ (List.length (fst (run_analysis yf tickers multiplier period))
      <= List.length tickers)%nat
  /\ forall r, In r (fst (run_analysis yf tickers multiplier period)) ->
       In (Ticker r, Asset r) tickers /\ ATR_period (Values r) = period.
Proof.
  destruct (fold_analyse_facts yf multiplier period (List.length tickers)
              tickers 0 [] []) as (H1 & _ & _ & H4).
  cbn zeta in H1, H4. fold (enumerate tickers) in H1, H4.
  fold (run_analysis yf tickers multiplier period) in H1, H4.
  cbn [app] in H1. split; [exact H1|]. split; [cbn in H4; lia|].
  intros r Hr. rewrite H1 in Hr. apply in_flat_map in Hr.
  destruct Hr as (e & He & Hr). apply rows_of_spec in Hr.
  destruct Hr as (Ht & Ha & Hp). rewrite Ht, Ha, Hp.
  split; [|reflexivity]. now destruct e.
Qed.

(** X9.  The loop calls [fetch_ticker_data] once per entry, in the order of
    the list and always for the lookback "6mo", and reports progress once
    per entry: 1 of n, 2 of n, up to n of n. *)
Theorem analysis_trace (yf : provider) (tickers : list entry)
    (multiplier : Q) (period : Z) :
  downloads_of (snd (run_analysis yf tickers multiplier period))
  = map (fun e => (fst e, "6mo"%string)) tickers
  /\ progress_of (snd (run_analysis yf tickers multiplier period))
     = map (fun i => (S i, List.length tickers)) (seq 0 (List.length tickers)).
Proof.
  destruct (fold_analyse_facts yf multiplier period (List.length tickers)
              tickers 0 [] []) as (_ & H2 & H3 & _).
  split; [exact H2 | exact H3].
Qed.

(** X10.  Over a whole run of the button handler, the loop and the
    message after it, rows, warnings and errors together never outnumber
    the entries by more than one: an entry gives a row, or one warning,
    or one error, or, on an empty frame, nothing at all, and the handler
    adds the error "No data could be retrieved" exactly when the loop
    kept no row, and adds no warning. *)
Theorem run_messages_bound (yf : provider) (tickers : list entry)
    (multiplier : Q) (period : Z) :
  let run := calculate_stops yf tickers multiplier period in
  let loop := run_analysis yf tickers multiplier period in
  fst run = fst loop
  /\ warnings_of (snd run) = warnings_of (snd loop)
  /\ errors_of (snd run)
     = errors_of (snd loop)
       ++ match fst loop with
          | [] => ["No data could be retrieved. Please check your ticker symbols."]%string
          | _ :: _ => []
          end
  /\ (List.length (fst run) + List.length (warnings_of (snd run))
      + List.length (errors_of (snd run))
      <= List.length tickers + match fst loop with [] => 1 | _ :: _ => 0 end)%nat.
Proof.
  cbn zeta.
  destruct (fold_analyse_facts yf multiplier period (List.length tickers)
              tickers 0 [] []) as (_ & _ & _ & H4).
  cbn zeta in H4. fold (enumerate tickers) in H4.
  fold (run_analysis yf tickers multiplier period) in H4.
  unfold calculate_stops.
  destruct (run_analysis yf tickers multiplier period) as [rows log].
  cbn [fst snd List.length] in H4 |- *.
  assert (Hw : forall e, warnings_of (log ++ [e]) = warnings_of log ++ warnings_of [e])
    by (intros; apply warnings_of_app).
  assert (He : forall e, errors_of (log ++ [e]) = errors_of log ++ errors_of [e])
    by (intros; apply errors_of_app).
  destruct rows as [|r rows]; cbn [fst snd]; rewrite Hw, He;
    cbn [warnings_of errors_of flat_map app]; rewrite ?app_nil_r;
    (split; [reflexivity|]); (split; [reflexivity|]); (split; [reflexivity|]).
  - rewrite length_app. cbn in H4 |- *. lia.
  - cbn in H4 |- *. lia.
Qed.

(** ** Which rows a window holds *)

Lemma rolling_mean_nth (w i : nat) (xs : Series) :
  (i < List.length xs)%nat ->
  nth_error (rolling_mean w xs) i = Some (nanmean (window_at w i xs)).
Proof.
  intros Hi. unfold rolling_mean.
  rewrite nth_error_map, nth_error_seq.
  destruct (Nat.ltb_spec i (List.length xs)); [reflexivity | lia].
Qed.

(** The window that ends on row [i] holds the values of the rows
    [i + 1 - w] to [i], and no other. *)
Lemma window_at_In (w i : nat) (xs : Series) (x : fval) :
  (1 <= w)%nat ->
  In x (window_at w i xs)
  <-> exists j, (S i - w <= j <= i)%nat /\ nth_error xs j = Some x.
Proof.
  intros Hw. unfold window_at. split.
  - intros H. apply In_nth_error in H. destruct H as [k Hk].
    rewrite nth_error_skipn, nth_error_firstn in Hk.
    destruct (Nat.ltb_spec (S i - w + k) (S i)) as [Hlt | Hge]; [|discriminate].
    exists (S i - w + k)%nat. split; [lia | exact Hk].
  - intros (j & Hj & Hx). apply nth_error_In with (n := (j - (S i - w))%nat).
    rewrite nth_error_skipn, nth_error_firstn.
    replace (S i - w + (j - (S i - w)))%nat with j by lia.
    destruct (Nat.ltb_spec j (S i)); [exact Hx | lia].
Qed.

Lemma observations_nil_iff (xs : Series) :
  observations xs = [] <-> forall x, In x xs -> x = NaN.
Proof.
  induction xs as [|y xs IH]; [split; [intros _ x [] | reflexivity]|].
  destruct y as [|q]; cbn [observations].
  - rewrite IH. split.
    + intros H x [<- | Hx]; [reflexivity | now apply H].
    + intros H x Hx. apply H. now right.
  - split; [discriminate|]. intros H. specialize (H (Num q) (or_introl eq_refl)).
    discriminate H.
Qed.

Lemma nanmean_nan_iff (xs : Series) :
  nanmean xs = NaN <-> forall x, In x xs -> x = NaN.
Proof.
  rewrite <- observations_nil_iff. unfold nanmean.
  destruct (observations xs); split; intros H; try reflexivity; discriminate H.
Qed.

(** X11.  With an accepted window of [period] rows, the ATR of row [i] is
    NaN exactly when the true range is NaN on every one of the rows
    [i + 1 - period] to [i], cut at the first row; as soon as one of these
    rows has a true range, the ATR of row [i] is a number, and not a
    negative one. *)
Theorem atr_row_nan_iff (data : DataFrame) (period : Z) (atr : Series) (i : nat) :
  atr_series data period = inr atr ->
  (i < List.length data)%nat ->
  (nth_error atr i = Some NaN
   <-> forall j, (S i - Z.to_nat period <= j <= i)%nat ->
                 nth_error (true_range data) j = Some NaN)
  /\ (nth_error atr i = Some NaN
      \/ exists q, nth_error atr i = Some (Num q) /\ 0 <= q).
Proof.
  intros H Hi.
  pose proof (atr_series_nonneg data period atr H) as Hpos.
  unfold atr_series, rolling_min1_mean in H.
  destruct (period <? 0)%Z; [discriminate|].
  destruct (period <? 1)%Z eqn:E1; [discriminate|].
  apply Z.ltb_ge in E1. injection H as <-.
  assert (Hw : (1 <= Z.to_nat period)%nat) by lia.
  assert (Hi' : (i < List.length (true_range data))%nat)
    by now rewrite true_range_length.
  rewrite (rolling_mean_nth _ i _ Hi') in *. split.
  - split.
    + intros Hn. injection Hn as Hn. rewrite nanmean_nan_iff in Hn.
      intros j Hj.
      destruct (nth_error (true_range data) j) as [x|] eqn:Hx.
      * f_equal. apply Hn. apply window_at_In; [exact Hw|]. now exists j.
      * apply nth_error_None in Hx. lia.
    + intros Hall. f_equal. apply nanmean_nan_iff. intros x Hx.
      apply window_at_In in Hx; [|exact Hw]. destruct Hx as (j & Hj & Hx).
      rewrite (Hall j Hj) in Hx. now injection Hx.
  - assert (Hin : In (nanmean (window_at (Z.to_nat period) i (true_range data)))
                     (rolling_mean (Z.to_nat period) (true_range data))).
    { apply nth_error_In with (n := i). now apply rolling_mean_nth. }
    rewrite Forall_forall in Hpos. specialize (Hpos _ Hin).
    destruct (nanmean _) as [|q]; [now left | right]. now exists q.
Qed.

Lemma atr_row_nan_iff_witness :
  atr_series example_bars 3 = inr [NaN; Num 0; Num 2]
  /\ (2 < List.length example_bars)%nat
  /\ (nth_error [NaN; Num 0; Num 2] 2 = Some NaN
      <-> forall j, (3 - Z.to_nat 3 <= j <= 2)%nat ->
                    nth_error (true_range example_bars) j = Some NaN)
  /\ (nth_error [NaN; Num 0; Num 2] 2 = Some NaN
      \/ exists q, nth_error [NaN; Num 0; Num 2] 2 = Some (Num q) /\ 0 <= q).
Proof.
  assert (Hi : (2 < List.length example_bars)%nat) by (cbn; lia).
  exact (conj eq_refl (conj Hi
    (atr_row_nan_iff example_bars 3 [NaN; Num 0; Num 2] 2 eq_refl Hi))).
Defined.

(** ** Rows of the ticker list *)

Lemma pop_nth_error {A : Type} (i j : nat) (xs : list A) :
  (i < List.length xs)%nat ->
  nth_error (pop i xs) j
  = if (j <? i)%nat then nth_error xs j else nth_error xs (S j).
Proof.
  intros Hi. unfold pop.
  assert (Hf : List.length (firstn i xs) = i) by (rewrite length_firstn; lia).
  destruct (Nat.ltb_spec j i) as [Hlt | Hge].
  - rewrite nth_error_app1 by lia. rewrite nth_error_firstn.
    destruct (Nat.ltb_spec j i); [reflexivity | lia].
  - rewrite nth_error_app2 by lia. rewrite nth_error_skipn, Hf. f_equal. lia.
Qed.

(** X12.  Removing row [i] of a list that has one deletes that row only: rows
    before it keep their position, rows after it move up by one, and the
    list is one row shorter. *)
Theorem remove_shifts_rows (tickers : list entry) (i j : nat) :
  (i < List.length tickers)%nat ->
  let after := tickers_of (script_run (Some tickers) (Remove i)) in
  List.length after = (List.length tickers - 1)%nat
  /\ nth_error after j
     = if (j <? i)%nat then nth_error tickers j else nth_error tickers (S j).
Proof.
  intros Hi after. unfold after, script_run.
  destruct (Nat.ltb_spec i (List.length tickers)); [|lia].
  cbn [tickers_of]. split; [|now apply pop_nth_error].
  unfold pop. rewrite length_app, length_firstn, length_skipn. lia.
Qed.

Lemma remove_shifts_rows_witness :
  (1 < List.length default_tickers)%nat
  /\ List.length (tickers_of (script_run (Some default_tickers) (Remove 1)))
     = (List.length default_tickers - 1)%nat
  /\ nth_error (tickers_of (script_run (Some default_tickers) (Remove 1))) 2
     = if (2 <? 1)%nat then nth_error default_tickers 2
       else nth_error default_tickers 3.
Proof.
  assert (Hi : (1 < List.length default_tickers)%nat) by (cbn; lia).
  exact (conj Hi (remove_shifts_rows default_tickers 1 2 Hi)).
Defined.

Lemma pop_snoc {A : Type} (xs : list A) (x : A) : pop (List.length xs) (xs ++ [x]) = xs.
Proof.
  unfold pop. rewrite firstn_app, Nat.sub_diag, firstn_all. cbn [firstn].
  rewrite app_nil_r, skipn_all2; [apply app_nil_r|].
  rewrite length_app. cbn. lia.
Qed.

(** X13.  An add changes the list exactly when both fields are filled in, and
    then removing the last row undoes it: the new entry is the last row,
    holding the symbol in upper case and the description as typed. *)
Theorem add_then_remove_last (tickers : list entry) (new_ticker new_description : string) :
  let added := script_run (Some tickers) (AddTicker new_ticker new_description) in
  (added <> Some tickers
   <-> truthy new_ticker = true /\ truthy new_description = true)
  /\ (added <> Some tickers ->
      nth_error (tickers_of added) (List.length tickers)
      = Some (upper new_ticker, new_description)
      /\ script_run added (Remove (List.length tickers)) = Some tickers).
Proof.
  cbn zeta. unfold script_run.
  destruct (truthy new_ticker), (truthy new_description); cbn [andb].
  2-4: split; [split; [intros H; now contradiction H | intros [? ?]; discriminate]
              | intros H; now contradiction H].
  assert (Hneq : Some (tickers ++ [(upper new_ticker, new_description)]) <> Some tickers).
  { intros H. injection H as H. apply (f_equal (@List.length entry)) in H.
    rewrite length_app in H. cbn in H. lia. }
  split; [split; [auto | intros _; exact Hneq]|].
  intros _. split.
  - cbn [tickers_of]. rewrite nth_error_app2, Nat.sub_diag by lia. reflexivity.
  - rewrite length_app. cbn [List.length].
    destruct (Nat.ltb_spec (List.length tickers) (List.length tickers + 1)); [|lia].
    now rewrite pop_snoc.
Qed.

(** ** Blank fields *)

Lemma truthy_upper (s : string) : truthy (upper s) = truthy s.
Proof. now destruct s. Qed.

Lemma script_run_filled (ss : session_state) (c : click) :
  Forall (fun e => truthy (fst e) = true /\ truthy (snd e) = true) (tickers_of ss) ->
  Forall (fun e => truthy (fst e) = true /\ truthy (snd e) = true)
         (tickers_of (script_run ss c)).
Proof.
  intros H.
  assert (Hd : Forall (fun e => truthy (fst e) = true /\ truthy (snd e) = true)
                      default_tickers) by (repeat constructor).
  assert (Ht : Forall (fun e => truthy (fst e) = true /\ truthy (snd e) = true)
                      (match ss with None => default_tickers | Some t => t end))
    by (destruct ss; assumption).
  unfold script_run. destruct c as [| t d | i | |]; cbn [tickers_of]; auto.
  - destruct (truthy t) eqn:Et, (truthy d) eqn:Ed; cbn [andb tickers_of]; auto.
    apply Forall_app. split; [exact Ht|].
    constructor; [|constructor]. cbn [fst snd]. now rewrite truthy_upper.
  - destruct (i <? _)%nat; cbn [tickers_of]; [|exact Ht].
    rewrite Forall_forall in *. intros e He. apply Ht.
    unfold pop in He. apply in_app_or in He. destruct He as [He | He].
    + rewrite <- (firstn_skipn i). apply in_or_app. now left.
    + rewrite <- (firstn_skipn (S i)). apply in_or_app. now right.
Qed.

(** X15.  From a fresh session and after any sequence of runs, no entry of the
    list has an empty symbol or an empty description: an add with a blank
    field is dropped, and nothing else writes entries. *)
Theorem entries_never_blank (cs : list click) :
  Forall (fun e => fst e <> ""%string /\ snd e <> ""%string)
         (tickers_of (script_runs None cs)).
Proof.
  assert (G : forall ss,
             Forall (fun e => truthy (fst e) = true /\ truthy (snd e) = true)
                    (tickers_of ss) ->
             Forall (fun e => truthy (fst e) = true /\ truthy (snd e) = true)
                    (tickers_of (script_runs ss cs))).
  { unfold script_runs. induction cs as [|c cs IH]; intros ss Hss; [exact Hss|].
    cbn [fold_left]. apply IH. now apply script_run_filled. }
  specialize (G None (Forall_nil _)).
  rewrite Forall_forall in *. intros e He. destruct (G e He) as [H1 H2].
  split; intros E; [rewrite E in H1 | rewrite E in H2]; discriminate.
Qed.

(** ** Dropping an entry that fails *)

Lemma run_analysis_rows (yf : provider) (tickers : list entry)
    (multiplier : Q) (period : Z) :
  fst (run_analysis yf tickers multiplier period)
  = flat_map (rows_of yf multiplier period) tickers.
Proof.
  destruct (fold_analyse_facts yf multiplier period (List.length tickers)
              tickers 0 [] []) as (H1 & _).
  exact H1.
Qed.

(** X16.  An entry whose calculation returns nothing can sit anywhere in the
    list, any number of other entries around it: the rows of the run are
    those of the list without it.  The rows of a list are the rows of its
    parts, one after the other. *)
Theorem failed_entry_can_be_dropped (yf : provider) (before after : list entry)
    (e : entry) (multiplier : Q) (period : Z) :
  fst (calculate_atr_trailing_stop yf (fst e) multiplier period) = None ->
  fst (run_analysis yf (before ++ e :: after) multiplier period)
  = fst (run_analysis yf (before ++ after) multiplier period)
  /\ fst (run_analysis yf (before ++ after) multiplier period)
     = fst (run_analysis yf before multiplier period)
       ++ fst (run_analysis yf after multiplier period).
Proof.
  intros H. rewrite !run_analysis_rows, !flat_map_app. cbn [flat_map].
  unfold rows_of at 2. rewrite H. split; reflexivity.
Qed.

Lemma failed_entry_can_be_dropped_witness :
  fst (calculate_atr_trailing_stop flaky_provider
         (fst ("BAD.L", "Delisted")%string) 4 3) = None
  /\ fst (run_analysis flaky_provider
            ([("SGLN.L", "Physical Gold ETF")%string]
             ++ ("BAD.L", "Delisted")%string
             :: [("IWRD.L", "iShares World ETF")%string]) 4 3)
     = fst (run_analysis flaky_provider
              ([("SGLN.L", "Physical Gold ETF")%string]
               ++ [("IWRD.L", "iShares World ETF")%string]) 4 3)
  /\ fst (run_analysis flaky_provider
            ([("SGLN.L", "Physical Gold ETF")%string]
             ++ [("IWRD.L", "iShares World ETF")%string]) 4 3)
     = fst (run_analysis flaky_provider [("SGLN.L", "Physical Gold ETF")%string] 4 3)
       ++ fst (run_analysis flaky_provider [("IWRD.L", "iShares World ETF")%string] 4 3).
Proof.
  exact (conj eq_refl
    (failed_entry_can_be_dropped flaky_provider
       [("SGLN.L", "Physical Gold ETF")%string]
       [("IWRD.L", "iShares World ETF")%string]
       ("BAD.L", "Delisted")%string 4 3 eq_refl)).
Defined.
